(** * tinky-alert: the Alert component and its theme

    A shallow embedding of [src/themes/alert-theme.tsx] and
    [src/components/Alert.tsx].  JavaScript objects are finite maps from
    property names to values, JSX elements are a small tree type, and a
    render ends in a completion (normal return or throw). *)

From stdpp Require Import base strings gmap list.

Open Scope string_scope.
Open Scope Z_scope.

(** ** JavaScript values and property reads *)

(** The values that flow through the component.  [JInherited k] stands for
    the value of [Object.prototype[k]] (a built-in function or, for
    [__proto__], the prototype object itself): it is never [undefined]. *)
Inductive jsval :=
  | JUndefined
  | JNull
  | JNumber (n : Z)
  | JString (s : string)
  | JBoolean (b : bool)
  | JInherited (k : string).

(** An object literal: its own enumerable properties. *)
Abbreviation object := (gmap string jsval).

(** The property names every ordinary object inherits from
    [Object.prototype] (ECMAScript, Properties of the Object Prototype
    Object, with the legacy accessors [__proto__], [__defineGetter__] and
    the like). *)
Definition ObjectPrototype : list string :=
  [ "constructor"; "hasOwnProperty"; "isPrototypeOf"; "propertyIsEnumerable";
    "toLocaleString"; "toString"; "valueOf"; "__proto__";
    "__defineGetter__"; "__defineSetter__";
    "__lookupGetter__"; "__lookupSetter__" ].

(** [o[k]] on an object literal (ECMAScript OrdinaryGet): own properties
    first, then the prototype chain, which for an object literal is
    [Object.prototype] alone; a name found nowhere reads as [undefined].
    A property read on an object never throws. *)
Definition Get (o : object) (k : string) : jsval :=
  match o !! k with
  | Some v => v
  | None => if bool_decide (k ∈ ObjectPrototype) then JInherited k else JUndefined
  end.

(** JavaScript truthiness of an optional string ([undefined] and the empty
    string are falsy, every other string is truthy). *)
Definition truthy (s : option string) : bool :=
  match s with
  | None => false
  | Some s => negb (bool_decide (s = ""))
  end.

(** ** alert-theme.tsx *)

Definition colorByVariant : object :=
  <["info" := JString "blue"]>
  (<["success" := JString "green"]>
  (<["error" := JString "red"]>
  (<["warning" := JString "yellow"]> ∅))).

Record AlertThemeProps := { variant : string }.

(** [BoxProps] and [TextProps] are plain objects of optional attributes. *)
Abbreviation BoxProps := object (only parsing).
Abbreviation TextProps := object (only parsing).

Record AlertStyles := {
  container : AlertThemeProps → BoxProps;
  iconContainer : unit → BoxProps;
  icon : AlertThemeProps → TextProps;
  content : unit → BoxProps;
  title : unit → TextProps;
  message : unit → TextProps
}.

Record AlertTheme := { styles : AlertStyles }.

Definition alertTheme : AlertTheme := {|
  styles := {|
    container := λ '{| variant := variant |},
      <["flexGrow" := JNumber 1]>
      (<["borderStyle" := JString "round"]>
      (<["borderColor" := Get colorByVariant variant]>
      (<["gap" := JNumber 1]>
      (<["paddingX" := JNumber 1]> ∅))));
    iconContainer := λ _,
      <["flexShrink" := JNumber 0]> ∅;
    icon := λ '{| variant := variant |},
      <["color" := Get colorByVariant variant]> ∅;
    content := λ _,
      <["flexShrink" := JNumber 1]>
      (<["flexGrow" := JNumber 1]>
      (<["minWidth" := JNumber 0]>
      (<["flexDirection" := JString "column"]>
      (<["gap" := JNumber 1]> ∅))));
    title := λ _,
      <["bold" := JBoolean true]> ∅;
    message := λ _, ∅
  |}
|}.

(** ** JSX elements *)

(** The two host components of tinky the alert is built from. *)
Inductive component := Box | Text.

(** A [ReactNode]: a primitive child (string, number, boolean, [null],
    [undefined]), an array of nodes, or an element
    [<tag {...props}>children</tag>]. *)
#[warnings="-register-all"]
Inductive ReactNode :=
  | Primitive (v : jsval)
  | NodeArray (items : list ReactNode)
  | Element (tag : component) (props : object) (children : list ReactNode).

(** How a call ends: with a returned value or with a thrown one. *)
Inductive completion (A : Type) :=
  | Normal (a : A)
  | Throw (e : jsval).
Arguments Normal {A} a.
Arguments Throw {A} e.

(** The value of an optional string prop. *)
Definition optional (s : option string) : jsval :=
  match s with
  | None => JUndefined
  | Some s => JString s
  end.

(** [a && e] in a JSX child position, for an optional string [a]: the
    value of [a] itself when it is falsy, [e] otherwise. *)
Definition and_then (a : option string) (e : ReactNode) : ReactNode :=
  if truthy a then e else Primitive (optional a).

(** ** The figures of tinky-figures *)

Module Figures.
Record t := { info : string; tick : string; cross : string; warning : string }.
End Figures.

(** Modelled from the spec: the Unicode glyph table of tinky-figures, which
    is not part of this repository's sources (spec section 4.1, column
    Unicode icon; also the header comment of Alert.tsx). *)
Definition unicodeFigures : Figures.t :=
  {| Figures.info := "ℹ"; Figures.tick := "✔";
     Figures.cross := "✘"; Figures.warning := "⚠" |}.

(** Modelled from the spec: the fallback glyph table of tinky-figures
    (spec section 4.1, column ASCII fallback). *)
Definition asciiFigures : Figures.t :=
  {| Figures.info := "i"; Figures.tick := "√";
     Figures.cross := "×"; Figures.warning := "‼" |}.

(** Modelled from the spec: the [useFigures] hook of tinky-figures, as a
    function of the terminal's capability flag, which the hook reads from
    its environment (spec section 4.1, selection rule; the same choice is
    written out in tests/full-integration.test.tsx). *)
Definition useFigures (unicodeSupported : bool) : Figures.t :=
  if unicodeSupported then unicodeFigures else asciiFigures.

(** ** Alert.tsx *)

Module AlertProps.
Record t := {
  children : ReactNode;
  variant : string;
  title : option string
}.
End AlertProps.

Section AlertComponent.

(** The theming hook of tinky-theme, an external collaborator: a total
    function, as its TypeScript signature says, of the component name, the
    default theme and the props.  [Alert] calls it and drops what it
    returns; the styles it spreads are those of [alertTheme] itself. *)
Context {ThemeResult : Type}.
Variable useComponentTheme : string → AlertTheme → AlertThemeProps → ThemeResult.

Definition Alert (unicodeSupported : bool) (p : AlertProps.t) : completion ReactNode :=
  let props := {| variant := p.(AlertProps.variant) |} in
  let _ := useComponentTheme "Alert" alertTheme props in
  let figures := useFigures unicodeSupported in
  let iconMap : object :=
    <["info" := JString figures.(Figures.info)]>
    (<["success" := JString figures.(Figures.tick)]>
    (<["error" := JString figures.(Figures.cross)]>
    (<["warning" := JString figures.(Figures.warning)]> ∅))) in
  let icon_glyph := Get iconMap p.(AlertProps.variant) in
  Normal
    (Element Box (alertTheme.(styles).(container) props)
      [ Element Box (alertTheme.(styles).(iconContainer) tt)
          [ Element Text (alertTheme.(styles).(icon) props)
              [ Primitive icon_glyph ] ];
        Element Box (alertTheme.(styles).(content) tt)
          [ and_then p.(AlertProps.title)
              (Element Text (alertTheme.(styles).(title) tt)
                 [ Primitive (optional p.(AlertProps.title)) ]);
            Element Text (alertTheme.(styles).(message) tt)
              [ p.(AlertProps.children) ] ] ]).

End AlertComponent.

(** ** Reading a layout *)

(** The layout a render returned, if it returned. *)
Definition layout (c : completion ReactNode) : option ReactNode :=
  match c with
  | Normal n => Some n
  | Throw _ => None
  end.

Definition props_of (n : ReactNode) : object :=
  match n with
  | Element _ props _ => props
  | Primitive _ | NodeArray _ => ∅
  end.

Definition children_of (n : ReactNode) : list ReactNode :=
  match n with
  | Element _ _ children => children
  | Primitive _ | NodeArray _ => []
  end.

Definition child (i : nat) (n : ReactNode) : option ReactNode :=
  children_of n !! i.

Definition is_element (n : ReactNode) : bool :=
  match n with
  | Element _ _ _ => true
  | Primitive _ | NodeArray _ => false
  end.

(** The element children of a node: the children that are nodes of the
    layout, as opposed to primitive values such as the [undefined] or the
    empty string a falsy [title && ...] leaves behind. *)
Definition elements (n : ReactNode) : list ReactNode :=
  List.filter is_element (children_of n).

(** The named places of the alert's layout, by their position in the tree
    [Alert] returns. *)
Definition iconSlot (c : completion ReactNode) : option ReactNode :=
  layout c ≫= child 0.
Definition iconText (c : completion ReactNode) : option ReactNode :=
  iconSlot c ≫= child 0.
Definition iconGlyph (c : completion ReactNode) : option ReactNode :=
  iconText c ≫= child 0.
Definition contentSlot (c : completion ReactNode) : option ReactNode :=
  layout c ≫= child 1.

Definition borderColor (c : completion ReactNode) : option jsval :=
  (props_of <$> layout c) ≫= (.!! "borderColor").

Definition iconColor (c : completion ReactNode) : option jsval :=
  (props_of <$> iconText c) ≫= (.!! "color").

(** The message node closes the content slot; a title node, when there is
    one, is the element stacked before it. *)
Definition messageNode (c : completion ReactNode) : option ReactNode :=
  contentSlot c ≫= λ slot, last (children_of slot).

Definition titleNode (c : completion ReactNode) : option ReactNode :=
  contentSlot c ≫= λ slot,
    match elements slot with
    | [t; _] => Some t
    | _ => None
    end.

(** ** The closed set of variants *)

(** The union type ["info" | "success" | "error" | "warning"] of
    [AlertProps] and [AlertThemeProps], and the string each member is at
    run time. *)
Inductive AlertVariant := v_info | v_success | v_error | v_warning.

Definition variant_name (v : AlertVariant) : string :=
  match v with
  | v_info => "info"
  | v_success => "success"
  | v_error => "error"
  | v_warning => "warning"
  end.

Definition variants : list string :=
  variant_name <$> [v_info; v_success; v_error; v_warning].

(** The tables of the specification, to compare the code with. *)
Definition spec_color (v : AlertVariant) : string :=
  match v with
  | v_info => "blue"
  | v_success => "green"
  | v_error => "red"
  | v_warning => "yellow"
  end.

Definition spec_unicodeIcon (v : AlertVariant) : string :=
  match v with
  | v_info => "ℹ"
  | v_success => "✔"
  | v_error => "✘"
  | v_warning => "⚠"
  end.

Definition spec_fallbackIcon (v : AlertVariant) : string :=
  match v with
  | v_info => "i"
  | v_success => "√"
  | v_error => "×"
  | v_warning => "‼"
  end.

(** A theming hook that resolves nothing. *)
Definition no_theme (_ : string) (_ : AlertTheme) (_ : AlertThemeProps) : unit := tt.

(** ** The toolchain test: listing the test files *)

(** What [readdirSync(path, { withFileTypes: true })] finds: a directory
    entry is a regular file, a directory, or something that is neither
    (a symbolic link, a socket, ...); a directory can be read, giving its
    entries in order, or cannot, in which case [readdirSync] throws. *)
#[warnings="-register-all"]
Inductive Dirent :=
  | FileEntry (name : string)
  | DirectoryEntry (name : string) (content : Directory)
  | OtherEntry (name : string)
with Directory :=
  | Unreadable
  | Readable (entries : list Dirent).

Definition name (entry : Dirent) : string :=
  match entry with
  | FileEntry n | DirectoryEntry n _ | OtherEntry n => n
  end.

(** [s.substring(start)]: what is left of [s] from position [start] on. *)
Fixpoint substring_from (start : nat) (s : string) : string :=
  match start, s with
  | O, _ => s
  | S start', String _ s' => substring_from start' s'
  | S _, EmptyString => EmptyString
  end.

(** [s.endsWith(searchString)] (ECMAScript String.prototype.endsWith with
    no end position): false when [searchString] is longer than [s],
    otherwise the comparison of the last characters of [s] with it.  For
    the ASCII suffixes used here the comparison is the same on bytes as on
    UTF-16 code units. *)
Definition endsWith (s searchString : string) : bool :=
  let len := String.length s in
  let searchLength := String.length searchString in
  if (len <? searchLength)%nat then false
  else String.eqb (substring_from (len - searchLength) s) searchString.

Section Toolchain.

(** [join] of node:path, an external function of two path segments. *)
Variable join : string → string → string.

(** [listTestFiles(directoryPath)], given what the directory at that path
    holds.  [None] is the exception of a [readdirSync] that failed, which
    nothing catches. *)
Fixpoint listTestFiles (directoryPath : string) (dir : Directory) {struct dir}
  : option (list string) :=
  match dir with
  | Unreadable => None
  | Readable entries =>
      (fix loop (entries : list Dirent) (files : list string) {struct entries}
         : option (list string) :=
         match entries with
         | [] => Some files
         | entry :: rest =>
             let entryPath := join directoryPath (name entry) in
             match entry with
             | DirectoryEntry _ sub =>
                 match listTestFiles entryPath sub with
                 | None => None
                 | Some found => loop rest (files ++ found)%list
                 end
             | FileEntry n =>
                 if endsWith n ".test.ts" || endsWith n ".test.tsx"
                 then loop rest (files ++ [entryPath])%list
                 else loop rest files
             | OtherEntry _ => loop rest files
             end
         end) entries []
  end.

(** What one entry adds to the list: one turn of the loop. *)
Definition visit (directoryPath : string) (entry : Dirent) : option (list string) :=
  match entry with
  | DirectoryEntry n sub => listTestFiles (join directoryPath n) sub
  | FileEntry n =>
      Some (if endsWith n ".test.ts" || endsWith n ".test.tsx"
            then [join directoryPath n] else [])
  | OtherEntry _ => Some []
  end.

(** The paths the listing is meant to hold: [join]ed down from
    [directoryPath] through readable directories to a regular file whose
    name is some stem followed by [.test.ts] or [.test.tsx]. *)
Inductive Listed : string → Directory → string → Prop :=
  | Listed_file (directoryPath : string) (entries : list Dirent) (n stem : string) :
      FileEntry n ∈ entries →
      n = stem ++ ".test.ts" ∨ n = stem ++ ".test.tsx" →
      Listed directoryPath (Readable entries) (join directoryPath n)
  | Listed_below (directoryPath : string) (entries : list Dirent)
      (n : string) (sub : Directory) (path : string) :
      DirectoryEntry n sub ∈ entries →
      Listed (join directoryPath n) sub path →
      Listed directoryPath (Readable entries) path.

End Toolchain.

(** A directory that cannot be read, at the top or anywhere below. *)
Inductive Blocked : Directory → Prop :=
  | Blocked_here : Blocked Unreadable
  | Blocked_below (entries : list Dirent) (n : string) (sub : Directory) :
      DirectoryEntry n sub ∈ entries → Blocked sub → Blocked (Readable entries).

(** The number of regular files named [*.test.ts] or [*.test.tsx] in a
    directory tree. *)
Fixpoint countTestFiles (dir : Directory) : nat :=
  match dir with
  | Unreadable => 0%nat
  | Readable entries =>
      (fix count (entries : list Dirent) : nat :=
         match entries with
         | [] => 0%nat
         | entry :: rest =>
             (match entry with
              | FileEntry n =>
                  if endsWith n ".test.ts" || endsWith n ".test.tsx" then 1%nat else 0%nat
              | DirectoryEntry _ sub => countTestFiles sub
              | OtherEntry _ => 0%nat
              end + count rest)%nat
         end) entries
  end.

(** Joining two plain segments with a slash, for concrete listings. *)
Definition slash_join (a b : string) : string := a ++ "/" ++ b.

(** A small [tests] directory for concrete listings: two test files, one
    of them in a sub-directory, beside entries the listing passes over. *)
Definition sample_tests : Directory :=
  Readable
    [ FileEntry "alert.test.tsx";
      DirectoryEntry "unit"
        (Readable [ FileEntry "index.test.ts"; FileEntry "notes.md" ]);
      OtherEntry "latest";
      FileEntry "setup.ts";
      DirectoryEntry "old.test.ts" (Readable []) ].

(** ** Property reads on the colour table *)

Lemma variants_spec (s : string) :
  s ∈ variants ↔ ∃ v, s = variant_name v.
Proof.
  unfold variants. rewrite list_elem_of_fmap. split.
  - intros (v & -> & _). by exists v.
  - intros (v & ->). exists v. split; [done|]. destruct v; set_solver.
Qed.

Lemma not_variant_ne (s : string) :
  s ∉ variants →
  s ≠ "info" ∧ s ≠ "success" ∧ s ≠ "error" ∧ s ≠ "warning".
Proof.
  intros H. repeat split; intros ->; apply H; vm_compute; set_solver.
Qed.

Lemma variant_not_inherited (v : AlertVariant) :
  variant_name v ∉ ObjectPrototype.
Proof. destruct v; apply (bool_decide_unpack _); by vm_compute. Qed.

Lemma colorByVariant_own_None (s : string) :
  s ∉ variants → colorByVariant !! s = None.
Proof.
  intros (? & ? & ? & ?)%not_variant_ne. unfold colorByVariant.
  by rewrite !lookup_insert_ne, lookup_empty.
Qed.

Lemma colorByVariant_unknown (s : string) :
  s ∉ variants → s ∉ ObjectPrototype → Get colorByVariant s = JUndefined.
Proof.
  intros Hv Hp. unfold Get. rewrite colorByVariant_own_None by done.
  by rewrite bool_decide_eq_false_2.
Qed.

Lemma colorByVariant_inherited (s : string) :
  s ∈ ObjectPrototype → Get colorByVariant s = JInherited s.
Proof.
  intros Hp. unfold Get. rewrite colorByVariant_own_None.
  - by rewrite bool_decide_eq_true_2.
  - intros (v & ->)%variants_spec. by eapply variant_not_inherited.
Qed.

(** ** The theme: colours and container attributes *)

(** C3.  The colour table holds exactly four entries, info: blue, success:
    green, error: red, warning: yellow; and for each variant the colour read
    from it is the [borderColor] of the container, both in the theme's
    [container] style and in the layout [Alert] returns. *)
Theorem colorByVariant_is_border_color :
  (∀ (k : string) (c : jsval),
     colorByVariant !! k = Some c ↔
     (k, c) ∈ [ ("info", JString "blue"); ("success", JString "green");
                ("error", JString "red"); ("warning", JString "yellow") ])
  ∧ (∀ v : AlertVariant,
       Get colorByVariant (variant_name v) = JString (spec_color v)
       ∧ alertTheme.(styles).(container) {| variant := variant_name v |}
           !! "borderColor" = Some (JString (spec_color v)))
  ∧ (∀ (T : Type) (hook : string → AlertTheme → AlertThemeProps → T)
       (u : bool) (v : AlertVariant) (body : ReactNode) (t : option string),
       (props_of <$> layout (Alert hook u
          {| AlertProps.children := body;
             AlertProps.variant := variant_name v;
             AlertProps.title := t |})) ≫= (.!! "borderColor")
       = Some (JString (spec_color v))).
Proof.
  split; [|split].
  - intros k c. rewrite !elem_of_cons, elem_of_nil. split.
    + intros Hk. destruct (decide (k ∈ variants)) as [Hin|Hout].
      * apply variants_spec in Hin as [v ->].
        destruct v; vm_compute in Hk; injection Hk as <-; tauto.
      * rewrite colorByVariant_own_None in Hk by done. discriminate.
    + intros [[= -> ->]|[[= -> ->]|[[= -> ->]|[[= -> ->]|[]]]]]; reflexivity.
  - intros v. split; by destruct v.
  - intros T hook u v body t. by destruct v.
Qed.

(** C7.  For every variant the container node of the layout [Alert]
    returns is a Box carrying exactly flexGrow 1, borderStyle round,
    paddingX 1, gap 1 and the variant's borderColor: five own properties and
    no other, the ones the theme's [container] style gives.  Between two
    variants every attribute but borderColor agrees, in the style and in the
    rendered node alike, and borderColor agrees only when the two variants
    are the same. *)
Theorem container_attributes_fixed :
  ∀ v : AlertVariant,
    alertTheme.(styles).(container) {| variant := variant_name v |}
    = <["flexGrow" := JNumber 1]> (<["borderStyle" := JString "round"]>
      (<["paddingX" := JNumber 1]> (<["gap" := JNumber 1]>
      (<["borderColor" := JString (spec_color v)]> ∅))))
    ∧ dom (alertTheme.(styles).(container) {| variant := variant_name v |})
      = {[ "flexGrow"; "borderStyle"; "paddingX"; "gap"; "borderColor" ]}
    ∧ (∀ v' : AlertVariant,
        delete "borderColor"
          (alertTheme.(styles).(container) {| variant := variant_name v |})
        = delete "borderColor"
          (alertTheme.(styles).(container) {| variant := variant_name v' |})
        ∧ (∀ k : string, k ≠ "borderColor" →
             alertTheme.(styles).(container) {| variant := variant_name v |} !! k
             = alertTheme.(styles).(container) {| variant := variant_name v' |} !! k)
        ∧ (alertTheme.(styles).(container) {| variant := variant_name v |}
             !! "borderColor"
           = alertTheme.(styles).(container) {| variant := variant_name v' |}
             !! "borderColor" → v = v'))
    ∧ (∀ (T : Type) (hook : string → AlertTheme → AlertThemeProps → T)
         (u : bool) (body : ReactNode) (t : option string),
         (∃ slots : list ReactNode,
            Alert hook u
              {| AlertProps.children := body;
                 AlertProps.variant := variant_name v;
                 AlertProps.title := t |}
            = Normal
                (Element Box
                   (<["flexGrow" := JNumber 1]> (<["borderStyle" := JString "round"]>
                    (<["paddingX" := JNumber 1]> (<["gap" := JNumber 1]>
                    (<["borderColor" := JString (spec_color v)]> ∅)))))
                   slots))
         ∧ dom <$> (props_of <$> layout (Alert hook u
             {| AlertProps.children := body;
                AlertProps.variant := variant_name v;
                AlertProps.title := t |}))
           = Some {[ "flexGrow"; "borderStyle"; "paddingX"; "gap"; "borderColor" ]}
         ∧ ∀ (v' : AlertVariant) (u' : bool) (body' : ReactNode)
             (t' : option string),
             delete "borderColor" <$> (props_of <$> layout (Alert hook u
               {| AlertProps.children := body;
                  AlertProps.variant := variant_name v;
                  AlertProps.title := t |}))
             = delete "borderColor" <$> (props_of <$> layout (Alert hook u'
               {| AlertProps.children := body';
                  AlertProps.variant := variant_name v';
                  AlertProps.title := t' |}))
             ∧ ((props_of <$> layout (Alert hook u
                   {| AlertProps.children := body;
                      AlertProps.variant := variant_name v;
                      AlertProps.title := t |})) ≫= (.!! "borderColor")
                = (props_of <$> layout (Alert hook u'
                   {| AlertProps.children := body';
                      AlertProps.variant := variant_name v';
                      AlertProps.title := t' |})) ≫= (.!! "borderColor")
                → v = v')).
Proof.
  intros v. split; [by destruct v|]. split; [|split].
  - simpl. rewrite !dom_insert_L, dom_empty_L. set_solver.
  - intros v'. split; [by destruct v, v'|]. split.
    + intros k Hk.
      rewrite <- (lookup_delete_ne (container _ {| variant := variant_name v |})
                    "borderColor" k) by done.
      rewrite <- (lookup_delete_ne (container _ {| variant := variant_name v' |})
                    "borderColor" k) by done.
      by destruct v, v'.
    + destruct v, v'; (reflexivity || (vm_compute; discriminate)).
  - intros T hook u body t. split; [|split].
    + destruct v; by eexists.
    + by destruct v.
    + intros v' u' body' t'. split.
      * by destruct v, v'.
      * destruct v, v'; (reflexivity || (vm_compute; discriminate)).
Qed.

(** C10.  For every variant string the icon's text colour is the
    container's border colour: both styles read the same entry of the one
    colour table. *)
Theorem icon_color_is_border_color :
  ∀ v : string,
    alertTheme.(styles).(icon) {| variant := v |} !! "color"
    = alertTheme.(styles).(container) {| variant := v |} !! "borderColor"
    ∧ alertTheme.(styles).(icon) {| variant := v |} !! "color"
      = Some (Get colorByVariant v).
Proof. intros v. split; reflexivity. Qed.

(** ** The theme on strings outside the closed set *)

Lemma Get_unknown (o : object) (k : string) :
  o !! k = None → k ∉ ObjectPrototype → Get o k = JUndefined.
Proof. intros Ho Hk. unfold Get. by rewrite Ho, bool_decide_eq_false_2. Qed.

(** C9, as stated, fails on a name inherited from [Object.prototype]:
    "constructor" is none of the four variants, and the border colour and
    the icon colour read for it are the inherited built-in, not
    [undefined]. *)
Lemma styles_inherited_name_not_undefined :
  ("constructor" ∉ variants)
  ∧ alertTheme.(styles).(container) {| variant := "constructor" |} !! "borderColor"
    = Some (JInherited "constructor")
  ∧ alertTheme.(styles).(icon) {| variant := "constructor" |} !! "color"
    = Some (JInherited "constructor")
  ∧ Some (JInherited "constructor") ≠ Some JUndefined
  ∧ Some (JInherited "constructor") ≠ @None jsval.
Proof.
  split; [|done].
  intros (v & Hv)%variants_spec. by destruct v.
Qed.

(** C9, amended.  For a variant string that is none of the four and names
    no property inherited from [Object.prototype], the [container] and
    [icon] styles return their usual objects with [borderColor], respectively
    [color], undefined. *)
Theorem styles_unknown_variant (v : string) :
  v ∉ variants → v ∉ ObjectPrototype →
  alertTheme.(styles).(container) {| variant := v |}
  = <["flexGrow" := JNumber 1]> (<["borderStyle" := JString "round"]>
    (<["borderColor" := JUndefined]> (<["gap" := JNumber 1]>
    (<["paddingX" := JNumber 1]> ∅))))
  ∧ alertTheme.(styles).(icon) {| variant := v |}
    = <["color" := JUndefined]> ∅.
Proof.
  intros Hv Hp. cbn [alertTheme styles container icon].
  by rewrite colorByVariant_unknown.
Qed.

Lemma styles_unknown_variant_witness :
  ("bogus" ∉ variants) ∧ ("bogus" ∉ ObjectPrototype)
  ∧ alertTheme.(styles).(container) {| variant := "bogus" |}
  = <["flexGrow" := JNumber 1]> (<["borderStyle" := JString "round"]>
    (<["borderColor" := JUndefined]> (<["gap" := JNumber 1]>
    (<["paddingX" := JNumber 1]> ∅))))
  ∧ alertTheme.(styles).(icon) {| variant := "bogus" |}
    = <["color" := JUndefined]> ∅.
Proof.
  assert (Hv : "bogus" ∉ variants) by (apply (bool_decide_unpack _); exact I).
  assert (Hp : "bogus" ∉ ObjectPrototype) by (apply (bool_decide_unpack _); exact I).
  split; [exact Hv|]. split; [exact Hp|].
  exact (styles_unknown_variant "bogus" Hv Hp).
Defined.

(** ** The layout [Alert] returns *)

Section AlertProperties.

Context {ThemeResult : Type}.
Variable useComponentTheme : string → AlertTheme → AlertThemeProps → ThemeResult.

Local Abbreviation render := (Alert useComponentTheme).

(** C2.  For each of the four variants the glyph in the icon slot is the
    variant's Unicode icon when Unicode is supported and its ASCII fallback
    when it is not. *)
Theorem icon_glyph_by_capability :
  ∀ (v : AlertVariant) (body : ReactNode) (t : option string),
    iconGlyph (render true
      {| AlertProps.children := body; AlertProps.variant := variant_name v;
         AlertProps.title := t |})
    = Some (Primitive (JString (spec_unicodeIcon v)))
    ∧ iconGlyph (render false
        {| AlertProps.children := body; AlertProps.variant := variant_name v;
           AlertProps.title := t |})
      = Some (Primitive (JString (spec_fallbackIcon v))).
Proof. intros v body t. by destruct v. Qed.

(** C6.  The capability flag never changes the colour: for every variant
    string the icon colour and the border colour of the layout are the same
    with and without Unicode support, namely the entry the colour table
    gives for the variant. *)
Theorem color_stability :
  ∀ (v : string) (body : ReactNode) (t : option string),
    let p := {| AlertProps.children := body; AlertProps.variant := v;
                AlertProps.title := t |} in
    iconColor (render true p) = iconColor (render false p)
    ∧ borderColor (render true p) = borderColor (render false p)
    ∧ ∀ u : bool,
        iconColor (render u p) = Some (Get colorByVariant v)
        ∧ borderColor (render u p) = Some (Get colorByVariant v).
Proof. intros v body t p. repeat split. Qed.


(** C5.  In every render the message node holds the caller's children as
    they are, whatever they are (an empty or blank string included); the
    render returns normally, and the message node has no attribute at all,
    so no bold flag. *)
Theorem message_pass_through :
  ∀ (u : bool) (p : AlertProps.t),
    messageNode (render u p)
    = Some (Element Text ∅ [ p.(AlertProps.children) ])
    ∧ (∃ tree, render u p = Normal tree)
    ∧ (props_of <$> messageNode (render u p)) ≫= (.!! "bold") = None.
Proof.
  intros u [body v t]. split; [|split].
  - unfold messageNode, contentSlot. reflexivity.
  - by eexists.
  - reflexivity.
Qed.

(** C4.  With the title absent or empty the content slot holds no title
    node, only the message node; with a non-empty title [X] it holds a title
    node with text [X] and bold true, stacked before the message node. *)
Theorem title_gating (X : string) :
  X ≠ "" →
  ∀ (u : bool) (v : string) (body : ReactNode),
    let p t := {| AlertProps.children := body; AlertProps.variant := v;
                  AlertProps.title := t |} in
    let msg := Element Text ∅ [ body ] in
    (titleNode (render u (p None)) = None
     ∧ elements <$> contentSlot (render u (p None)) = Some [ msg ])
    ∧ (titleNode (render u (p (Some ""))) = None
       ∧ elements <$> contentSlot (render u (p (Some ""))) = Some [ msg ])
    ∧ (titleNode (render u (p (Some X)))
       = Some (Element Text (<["bold" := JBoolean true]> ∅)
                 [ Primitive (JString X) ])
       ∧ children_of <$> contentSlot (render u (p (Some X)))
         = Some [ Element Text (<["bold" := JBoolean true]> ∅)
                    [ Primitive (JString X) ]; msg ]).
Proof.
  intros HX u v body p msg. split; [by split|]. split; [by split|].
  unfold titleNode, contentSlot, elements, p. cbn.
  unfold and_then, truthy. rewrite bool_decide_eq_false_2 by done. by split.
Qed.

(** C1, amended.  For a variant string that is none of the four and names
    no property inherited from [Object.prototype], the render raises no
    error and picks no fallback variant: it returns the usual layout, with
    the container's border colour, the icon's colour and the icon glyph all
    undefined. *)
Theorem Alert_unknown_variant (u : bool) (p : AlertProps.t) :
  p.(AlertProps.variant) ∉ variants →
  p.(AlertProps.variant) ∉ ObjectPrototype →
  render u p
  = Normal
      (Element Box
         (<["flexGrow" := JNumber 1]> (<["borderStyle" := JString "round"]>
          (<["borderColor" := JUndefined]> (<["gap" := JNumber 1]>
          (<["paddingX" := JNumber 1]> ∅)))))
         [ Element Box (<["flexShrink" := JNumber 0]> ∅)
             [ Element Text (<["color" := JUndefined]> ∅)
                 [ Primitive JUndefined ] ];
           Element Box
             (<["flexShrink" := JNumber 1]> (<["flexGrow" := JNumber 1]>
              (<["minWidth" := JNumber 0]>
              (<["flexDirection" := JString "column"]>
              (<["gap" := JNumber 1]> ∅)))))
             [ and_then p.(AlertProps.title)
                 (Element Text (<["bold" := JBoolean true]> ∅)
                    [ Primitive (optional p.(AlertProps.title)) ]);
               Element Text ∅ [ p.(AlertProps.children) ] ] ]).
Proof.
  destruct p as [body v t]. cbn [AlertProps.variant AlertProps.title AlertProps.children].
  intros Hv Hp. destruct (not_variant_ne _ Hv) as (? & ? & ? & ?).
  unfold Alert.
  cbn [alertTheme styles container icon iconContainer content title message
       AlertProps.variant AlertProps.title AlertProps.children].
  rewrite colorByVariant_unknown by done.
  rewrite Get_unknown; [reflexivity| |done].
  by rewrite !lookup_insert_ne, lookup_empty.
Qed.

End AlertProperties.

(** ** Concrete renders *)

(** C1, as stated, fails: "bogus" is none of the four variants, and
    [Alert] returns a layout for it, with no border colour, no icon colour
    and no glyph, instead of raising an error. *)
Lemma Alert_bogus_variant_returns_layout :
  ("bogus" ∉ variants)
  ∧ Alert no_theme true
      {| AlertProps.children := Primitive (JString "Message");
         AlertProps.variant := "bogus";
         AlertProps.title := None |}
    = Normal
        (Element Box
           (<["flexGrow" := JNumber 1]> (<["borderStyle" := JString "round"]>
            (<["borderColor" := JUndefined]> (<["gap" := JNumber 1]>
            (<["paddingX" := JNumber 1]> ∅)))))
           [ Element Box (<["flexShrink" := JNumber 0]> ∅)
               [ Element Text (<["color" := JUndefined]> ∅)
                   [ Primitive JUndefined ] ];
             Element Box
               (<["flexShrink" := JNumber 1]> (<["flexGrow" := JNumber 1]>
                (<["minWidth" := JNumber 0]>
                (<["flexDirection" := JString "column"]>
                (<["gap" := JNumber 1]> ∅)))))
               [ Primitive JUndefined;
                 Element Text ∅ [ Primitive (JString "Message") ] ] ])
  ∧ (∀ e : jsval,
       Alert no_theme true
         {| AlertProps.children := Primitive (JString "Message");
            AlertProps.variant := "bogus";
            AlertProps.title := None |}
       ≠ Throw e).
Proof.
  split; [|split].
  - apply (bool_decide_unpack _). exact I.
  - reflexivity.
  - intros e. discriminate.
Qed.

Lemma Alert_unknown_variant_witness :
  ("bogus" ∉ variants) ∧ ("bogus" ∉ ObjectPrototype)
  ∧ layout (Alert no_theme false
      {| AlertProps.children := Primitive (JString "Message");
         AlertProps.variant := "bogus";
         AlertProps.title := Some "Title" |})
    = Some
        (Element Box
           (<["flexGrow" := JNumber 1]> (<["borderStyle" := JString "round"]>
            (<["borderColor" := JUndefined]> (<["gap" := JNumber 1]>
            (<["paddingX" := JNumber 1]> ∅)))))
           [ Element Box (<["flexShrink" := JNumber 0]> ∅)
               [ Element Text (<["color" := JUndefined]> ∅)
                   [ Primitive JUndefined ] ];
             Element Box
               (<["flexShrink" := JNumber 1]> (<["flexGrow" := JNumber 1]>
                (<["minWidth" := JNumber 0]>
                (<["flexDirection" := JString "column"]>
                (<["gap" := JNumber 1]> ∅)))))
               [ Element Text (<["bold" := JBoolean true]> ∅)
                   [ Primitive (JString "Title") ];
                 Element Text ∅ [ Primitive (JString "Message") ] ] ]).
Proof.
  assert (Hv : "bogus" ∉ variants) by (apply (bool_decide_unpack _); exact I).
  assert (Hp : "bogus" ∉ ObjectPrototype) by (apply (bool_decide_unpack _); exact I).
  split; [exact Hv|]. split; [exact Hp|].
  exact (f_equal layout
           (Alert_unknown_variant no_theme false
              {| AlertProps.children := Primitive (JString "Message");
                 AlertProps.variant := "bogus";
                 AlertProps.title := Some "Title" |} Hv Hp)).
Defined.

Lemma title_gating_witness :
  ("Success" ≠ "")
  ∧ titleNode (Alert no_theme true
      {| AlertProps.children := Primitive (JString "Message");
         AlertProps.variant := "success";
         AlertProps.title := Some "Success" |})
    = Some (Element Text (<["bold" := JBoolean true]> ∅)
              [ Primitive (JString "Success") ]).
Proof.
  assert (HX : "Success" ≠ "") by discriminate.
  split; [exact HX|].
  exact (proj1 (proj2 (proj2
           (title_gating no_theme "Success" HX true "success"
              (Primitive (JString "Message")))))).
Defined.

(** ** The end-to-end scenarios of the specification *)

Example scenario_success_unicode :
  let r := Alert no_theme true
    {| AlertProps.children := Primitive (JString "Message");
       AlertProps.variant := "success";
       AlertProps.title := Some "Success" |} in
  borderColor r = Some (JString "green")
  ∧ iconColor r = Some (JString "green")
  ∧ iconGlyph r = Some (Primitive (JString "✔"))
  ∧ titleNode r = Some (Element Text (<["bold" := JBoolean true]> ∅)
                          [ Primitive (JString "Success") ])
  ∧ messageNode r = Some (Element Text ∅ [ Primitive (JString "Message") ]).
Proof. repeat split. Qed.

Example scenario_error_ascii :
  let r := Alert no_theme false
    {| AlertProps.children := Primitive (JString "Message");
       AlertProps.variant := "error";
       AlertProps.title := Some "Error" |} in
  iconGlyph r = Some (Primitive (JString "×"))
  ∧ iconColor r = Some (JString "red")
  ∧ borderColor r = Some (JString "red").
Proof. repeat split. Qed.

Example scenario_warning_untitled :
  let r := Alert no_theme true
    {| AlertProps.children := Primitive (JString "Message without title");
       AlertProps.variant := "warning";
       AlertProps.title := None |} in
  titleNode r = None
  ∧ messageNode r
    = Some (Element Text ∅ [ Primitive (JString "Message without title") ])
  ∧ iconColor r = Some (JString "yellow").
Proof. repeat split. Qed.

Example scenario_empty_title :
  elements <$> contentSlot (Alert no_theme true
    {| AlertProps.children := Primitive (JString "Message");
       AlertProps.variant := "info";
       AlertProps.title := Some "" |})
  = elements <$> contentSlot (Alert no_theme true
    {| AlertProps.children := Primitive (JString "Message");
       AlertProps.variant := "info";
       AlertProps.title := None |}).
Proof. reflexivity. Qed.

Example scenario_empty_message :
  messageNode (Alert no_theme true
    {| AlertProps.children := Primitive (JString "");
       AlertProps.variant := "info";
       AlertProps.title := None |})
  = Some (Element Text ∅ [ Primitive (JString "") ]).
Proof. reflexivity. Qed.

(** ** Listing the test files *)

(** Induction on a directory tree: a property holds of every directory when
    it holds of an unreadable one and passes from the sub-directories among
    the entries to the directory holding them. *)
Lemma Directory_induction (P : Directory → Prop) :
  P Unreadable →
  (∀ entries : list Dirent,
     (∀ (n : string) (sub : Directory), DirectoryEntry n sub ∈ entries → P sub) →
     P (Readable entries)) →
  ∀ dir : Directory, P dir.
Proof.
  intros Hunreadable Hreadable. fix IH 1. intros [|entries].
  - exact Hunreadable.
  - apply Hreadable. induction entries as [|entry rest IHrest]; intros n sub Hin.
    + destruct (proj1 (elem_of_nil _) Hin).
    + apply elem_of_cons in Hin as [Heq|Hin]; [|exact (IHrest n sub Hin)].
      destruct entry as [m|m sub'|m]; [discriminate Heq| |discriminate Heq].
      injection Heq as _ Hsub. rewrite Hsub. exact (IH sub').
Qed.

Lemma substring_from_app (pre s : string) :
  substring_from (String.length pre) (pre ++ s) = s.
Proof.
  induction pre as [|c pre IH]; [done|].
  change (substring_from (String.length pre) (pre ++ s) = s). exact IH.
Qed.

Lemma substring_from_split (start : nat) (s : string) :
  ∃ pre : string, s = pre ++ substring_from start s.
Proof.
  revert s. induction start as [|start IH]; intros s.
  - by exists "".
  - destruct s as [|c s]; [by exists ""|].
    destruct (IH s) as [pre Hpre]. exists (String c pre).
    change (String c s = String c (pre ++ substring_from start s)).
    f_equal. exact Hpre.
Qed.

Lemma string_length_app (a b : string) :
  String.length (a ++ b) = (String.length a + String.length b)%nat.
Proof.
  induction a as [|c a IH]; [done|].
  change (S (String.length (a ++ b)) = S (String.length a + String.length b)).
  by rewrite IH.
Qed.

(** [endsWith] holds exactly of the strings that are some prefix followed
    by the search string. *)
Lemma endsWith_spec (s searchString : string) :
  endsWith s searchString = true ↔ ∃ pre : string, s = pre ++ searchString.
Proof.
  unfold endsWith. split.
  - destruct (String.length s <? String.length searchString)%nat; [done|].
    intros <-%String.eqb_eq. apply substring_from_split.
  - intros [pre ->]. rewrite string_length_app.
    destruct (Nat.ltb_spec (String.length pre + String.length searchString)
                (String.length searchString)) as [Hlt|_]; [lia|].
    replace (String.length pre + String.length searchString
             - String.length searchString)%nat with (String.length pre) by lia.
    rewrite substring_from_app. apply String.eqb_refl.
Qed.

Lemma test_name_spec (n : string) :
  endsWith n ".test.ts" || endsWith n ".test.tsx" = true
  ↔ ∃ stem : string, n = stem ++ ".test.ts" ∨ n = stem ++ ".test.tsx".
Proof.
  rewrite orb_true_iff, !endsWith_spec. split.
  - intros [[stem ->]|[stem ->]]; exists stem; tauto.
  - intros [stem [->| ->]]; [left|right]; by exists stem.
Qed.

Section ToolchainProperties.

Variable join : string → string → string.

Local Abbreviation list_files := (listTestFiles join).

Lemma listTestFiles_nil (directoryPath : string) :
  list_files directoryPath (Readable []) = Some [].
Proof. reflexivity. Qed.

(** The loop with files already collected is the loop from nothing, put
    after them. *)
Lemma listTestFiles_cons (directoryPath : string) (entry : Dirent) (rest : list Dirent) :
  list_files directoryPath (Readable (entry :: rest))
  = found ← visit join directoryPath entry;
    others ← list_files directoryPath (Readable rest);
    Some (found ++ others)%list.
Proof.
  cbn [listTestFiles].
  set (loop := fix loop (entries : list Dirent) (files : list string) := _).
  assert (Hloop : ∀ entries files,
            loop entries files = (files ++.)%list <$> loop entries []).
  { induction entries as [|e es IH]; intros files.
    - simpl. by rewrite app_nil_r.
    - cbn [loop]. fold loop. destruct e as [m|m sub|m].
      + destruct (endsWith m ".test.ts" || endsWith m ".test.tsx").
        * rewrite (IH (files ++ _)%list), (IH ([] ++ _)%list).
          destruct (loop es []); simpl; [|done]. by rewrite <- app_assoc.
        * done.
      + destruct (listTestFiles join _ sub) as [found|]; [|done].
        rewrite (IH (files ++ _)%list), (IH ([] ++ _)%list).
        destruct (loop es []); simpl; [|done]. by rewrite <- app_assoc.
      + done. }
  destruct entry as [m|m sub|m]; cbn [visit name].
  - destruct (endsWith m ".test.ts" || endsWith m ".test.tsx"); simpl.
    + rewrite Hloop. by destruct (loop rest []).
    + by destruct (loop rest []).
  - destruct (listTestFiles join _ sub) as [found|]; simpl; [|done].
    rewrite Hloop. by destruct (loop rest []).
  - simpl. by destruct (loop rest []).
Qed.

Lemma Listed_nil (directoryPath path : string) :
  Listed join directoryPath (Readable []) path ↔ False.
Proof.
  split; [|done]. inversion 1 as [? ? ? ? Hin|? ? ? ? ? Hin]; by apply elem_of_nil in Hin.
Qed.

Lemma Listed_cons (directoryPath path : string) (entry : Dirent) (rest : list Dirent) :
  Listed join directoryPath (Readable (entry :: rest)) path
  ↔ match entry with
    | FileEntry n =>
        path = join directoryPath n
        ∧ ∃ stem : string, n = stem ++ ".test.ts" ∨ n = stem ++ ".test.tsx"
    | DirectoryEntry n sub => Listed join (join directoryPath n) sub path
    | OtherEntry _ => False
    end
    ∨ Listed join directoryPath (Readable rest) path.
Proof.
  split.
  - inversion 1 as [? ? n stem Hin Hn|? ? n sub ? Hin Hsub]; subst;
      apply elem_of_cons in Hin as [<-|Hin].
    + left. eauto.
    + right. by eapply Listed_file.
    + by left.
    + right. by eapply Listed_below.
  - intros [Hentry|Hrest].
    + destruct entry as [n|n sub|n]; [|by eapply Listed_below, Hentry; left|done].
      destruct Hentry as (-> & stem & Hn). eapply Listed_file; [by left|done].
    + inversion Hrest; subst.
      * eapply Listed_file; [by right|done].
      * eapply Listed_below; [by right|done].
Qed.

Lemma Blocked_readable (entries : list Dirent) :
  Blocked (Readable entries)
  ↔ ∃ (n : string) (sub : Directory), DirectoryEntry n sub ∈ entries ∧ Blocked sub.
Proof.
  split.
  - inversion 1; eauto.
  - intros (n & sub & Hin & Hsub). by eapply Blocked_below.
Qed.

Lemma Blocked_cons (entry : Dirent) (rest : list Dirent) :
  Blocked (Readable (entry :: rest))
  ↔ match entry with
    | DirectoryEntry _ sub => Blocked sub
    | _ => False
    end
    ∨ Blocked (Readable rest).
Proof.
  rewrite !Blocked_readable. split.
  - intros (n & sub & [<-|Hin]%elem_of_cons & Hsub); [by left|right; eauto].
  - intros [Hentry|(n & sub & Hin & Hsub)].
    + destruct entry as [?|n sub|?]; [done| |done].
      exists n, sub. split; [by left|done].
    + exists n, sub. split; [by right|done].
Qed.

Lemma countTestFiles_cons (entry : Dirent) (rest : list Dirent) :
  countTestFiles (Readable (entry :: rest))
  = (match entry with
     | FileEntry n =>
         if endsWith n ".test.ts" || endsWith n ".test.tsx" then 1 else 0
     | DirectoryEntry _ sub => countTestFiles sub
     | OtherEntry _ => 0
     end + countTestFiles (Readable rest))%nat.
Proof. reflexivity. Qed.

(** X1.  When the listing returns, it holds exactly the paths of the
    regular files named [*.test.ts] or [*.test.tsx] in the directory and,
    recursively, in its sub-directories; entries that are neither files nor
    directories, and files with other names, are never listed. *)
Theorem listTestFiles_lists_test_files (dir : Directory) :
  ∀ (directoryPath : string) (files : list string),
    list_files directoryPath dir = Some files →
    ∀ path : string, path ∈ files ↔ Listed join directoryPath dir path.
Proof.
  induction dir as [|entries IHsub] using Directory_induction;
    intros directoryPath files Hfiles path; [done|].
  revert files Hfiles.
  induction entries as [|entry rest IHrest]; intros files Hfiles.
  - rewrite listTestFiles_nil in Hfiles. injection Hfiles as <-.
    rewrite Listed_nil. apply elem_of_nil.
  - rewrite listTestFiles_cons in Hfiles. rewrite Listed_cons.
    destruct (visit join directoryPath entry) as [found|] eqn:Hvisit; [|done].
    destruct (list_files directoryPath (Readable rest)) as [others|] eqn:Hothers;
      [|done].
    injection Hfiles as <-. rewrite elem_of_app.
    rewrite (IHrest (λ n sub Hin, IHsub n sub (list_elem_of_further _ _ _ Hin))
               others eq_refl).
    apply or_iff_compat_r.
    destruct entry as [n|n sub|n]; cbn [visit] in Hvisit.
    + injection Hvisit as <-.
      destruct (endsWith n ".test.ts" || endsWith n ".test.tsx") eqn:Hn.
      * apply test_name_spec in Hn. rewrite list_elem_of_singleton. tauto.
      * rewrite elem_of_nil. split; [done|]. intros [_ Hstem].
        apply test_name_spec in Hstem. congruence.
    + eapply IHsub; [by left|done].
    + injection Hvisit as <-. apply elem_of_nil.
Qed.

(** X2.  The listing fails exactly when the directory, or a directory
    somewhere below it, cannot be read; there is no partial result. *)
Theorem listTestFiles_fails_iff_blocked (dir : Directory) :
  ∀ directoryPath : string,
    list_files directoryPath dir = None ↔ Blocked dir.
Proof.
  induction dir as [|entries IHsub] using Directory_induction; intros directoryPath.
  - split; [constructor|done].
  - induction entries as [|entry rest IHrest].
    + rewrite listTestFiles_nil, Blocked_readable. split; [done|].
      intros (n & sub & Hin & _). by apply elem_of_nil in Hin.
    + rewrite listTestFiles_cons, Blocked_cons.
      specialize (IHrest (λ n sub Hin, IHsub n sub (list_elem_of_further _ _ _ Hin))).
      destruct (list_files directoryPath (Readable rest)) as [others|].
      all: destruct entry as [n|n sub|n]; cbn [visit].
      all: try (pose proof (IHsub n sub (list_elem_of_here _ _)
                              (join directoryPath n)) as Hsub;
                destruct (listTestFiles join (join directoryPath n) sub)).
      all: simpl; intuition discriminate.
Qed.

(** X3.  Listing a directory is listing its entries one after the other:
    the result for entries [before ++ after] is the result for [before]
    followed by the result for [after], and fails when either does. *)
Theorem listTestFiles_app (directoryPath : string) (before after : list Dirent) :
  list_files directoryPath (Readable (before ++ after))
  = found ← list_files directoryPath (Readable before);
    others ← list_files directoryPath (Readable after);
    Some (found ++ others)%list.
Proof.
  induction before as [|entry before IH].
  - change ([] ++ after)%list with after. rewrite listTestFiles_nil.
    by destruct (list_files directoryPath (Readable after)).
  - rewrite <- app_comm_cons, !listTestFiles_cons, IH.
    destruct (visit join directoryPath entry) as [first|],
      (list_files directoryPath (Readable before)) as [found|],
      (list_files directoryPath (Readable after)) as [others|]; try done.
    simpl. by rewrite app_assoc.
Qed.

(** X4.  When the listing returns, its length is the number of test files
    in the tree: each is listed once. *)
Theorem listTestFiles_length (dir : Directory) :
  ∀ (directoryPath : string) (files : list string),
    list_files directoryPath dir = Some files →
    length files = countTestFiles dir.
Proof.
  induction dir as [|entries IHsub] using Directory_induction;
    intros directoryPath files Hfiles; [done|].
  revert files Hfiles.
  induction entries as [|entry rest IHrest]; intros files Hfiles.
  - rewrite listTestFiles_nil in Hfiles. by injection Hfiles as <-.
  - rewrite listTestFiles_cons in Hfiles. rewrite countTestFiles_cons.
    destruct (visit join directoryPath entry) as [found|] eqn:Hvisit; [|done].
    destruct (list_files directoryPath (Readable rest)) as [others|] eqn:Hothers;
      [|done].
    injection Hfiles as <-. rewrite length_app.
    rewrite (IHrest (λ n sub Hin, IHsub n sub (list_elem_of_further _ _ _ Hin))
               others eq_refl).
    f_equal. destruct entry as [n|n sub|n]; cbn [visit] in Hvisit.
    + injection Hvisit as <-.
      by destruct (endsWith n ".test.ts" || endsWith n ".test.tsx").
    + eapply IHsub; [by left|done].
    + by injection Hvisit as <-.
Qed.

End ToolchainProperties.

Lemma listTestFiles_lists_test_files_witness :
  listTestFiles slash_join "tests" sample_tests
  = Some [ "tests/alert.test.tsx"; "tests/unit/index.test.ts" ]
  ∧ ("tests/unit/index.test.ts"
       ∈ [ "tests/alert.test.tsx"; "tests/unit/index.test.ts" ]
     ↔ Listed slash_join "tests" sample_tests "tests/unit/index.test.ts").
Proof.
  assert (H : listTestFiles slash_join "tests" sample_tests
              = Some [ "tests/alert.test.tsx"; "tests/unit/index.test.ts" ])
    by reflexivity.
  split; [exact H|].
  exact (listTestFiles_lists_test_files slash_join sample_tests "tests" _ H _).
Defined.

Lemma listTestFiles_length_witness :
  listTestFiles slash_join "tests" sample_tests
  = Some [ "tests/alert.test.tsx"; "tests/unit/index.test.ts" ]
  ∧ length [ "tests/alert.test.tsx"; "tests/unit/index.test.ts" ]
    = countTestFiles sample_tests.
Proof.
  assert (H : listTestFiles slash_join "tests" sample_tests
              = Some [ "tests/alert.test.tsx"; "tests/unit/index.test.ts" ])
    by reflexivity.
  split; [exact H|].
  exact (listTestFiles_length slash_join sample_tests "tests" _ H).
Defined.

Example listTestFiles_unreadable_below :
  listTestFiles slash_join "tests"
    (Readable [ FileEntry "alert.test.tsx"; DirectoryEntry "locked" Unreadable ])
  = None.
Proof. reflexivity. Qed.

(** ** More on the colour table and the icon map *)

Lemma Get_own_None_not_string (o : object) (k : string) :
  o !! k = None → ∀ s : string, Get o k ≠ JString s.
Proof. intros Ho s. unfold Get. rewrite Ho. by case_bool_decide. Qed.

Lemma Get_inherited (o : object) (k : string) :
  o !! k = None → k ∈ ObjectPrototype → Get o k = JInherited k.
Proof. intros Ho Hk. unfold Get. by rewrite Ho, bool_decide_eq_true_2. Qed.

Lemma inherited_not_variant (k : string) :
  k ∈ ObjectPrototype → k ∉ variants.
Proof. intros Hk (v & ->)%variants_spec. by eapply variant_not_inherited. Qed.

(** X5.  The theme colours an alert exactly for the four variants: the
    container's borderColor is a colour name if and only if the variant
    string is one of info, success, error and warning, and likewise the
    icon's color. *)
Theorem color_is_string_iff_variant (v : string) :
  ((∃ c : string,
      alertTheme.(styles).(container) {| variant := v |} !! "borderColor"
      = Some (JString c)) ↔ v ∈ variants)
  ∧ ((∃ c : string,
        alertTheme.(styles).(icon) {| variant := v |} !! "color"
        = Some (JString c)) ↔ v ∈ variants).
Proof.
  assert (Hcolor : (∃ c : string, Some (Get colorByVariant v) = Some (JString c))
                   ↔ v ∈ variants).
  { split.
    - intros [c [= Hc]]. destruct (decide (v ∈ variants)) as [|Hout]; [done|].
      by apply colorByVariant_own_None, Get_own_None_not_string with (s := c) in Hout.
    - intros (w & ->)%variants_spec. exists (spec_color w). by destruct w. }
  split; exact Hcolor.
Qed.

Section MoreAlertProperties.

Context {ThemeResult : Type}.
Variable useComponentTheme : string → AlertTheme → AlertThemeProps → ThemeResult.

Local Abbreviation render := (Alert useComponentTheme).

Lemma iconMap_own_None (figures : Figures.t) (v : string) :
  v ∉ variants →
  (<["info" := JString figures.(Figures.info)]>
   (<["success" := JString figures.(Figures.tick)]>
   (<["error" := JString figures.(Figures.cross)]>
   (<["warning" := JString figures.(Figures.warning)]> (∅ : object))))) !! v
  = None.
Proof.
  intros (? & ? & ? & ?)%not_variant_ne. by rewrite !lookup_insert_ne, lookup_empty.
Qed.

(** X6.  The icon slot shows a glyph exactly for the four variants: with or
    without Unicode support, the child of the icon text is a string if and
    only if the variant string is one of the four. *)
Theorem glyph_is_string_iff_variant (u : bool) (p : AlertProps.t) :
  (∃ g : string, iconGlyph (render u p) = Some (Primitive (JString g)))
  ↔ p.(AlertProps.variant) ∈ variants.
Proof.
  destruct p as [body v t]. cbn [AlertProps.variant]. split.
  - intros [g Hg]. destruct (decide (v ∈ variants)) as [|Hout]; [done|].
    unfold iconGlyph, iconText, iconSlot, Alert in Hg. simpl in Hg.
    injection Hg as Hg.
    by apply (iconMap_own_None (useFigures u)), Get_own_None_not_string
      with (s := g) in Hout.
  - intros (w & ->)%variants_spec. destruct w, u; by eexists.
Qed.

(** X7.  A variant string that names a property inherited from
    [Object.prototype] gets through unchecked: the render returns a layout
    whose border colour, icon colour and glyph are that inherited value. *)
Theorem Alert_inherited_variant (u : bool) (p : AlertProps.t) :
  p.(AlertProps.variant) ∈ ObjectPrototype →
  borderColor (render u p) = Some (JInherited p.(AlertProps.variant))
  ∧ iconColor (render u p) = Some (JInherited p.(AlertProps.variant))
  ∧ iconGlyph (render u p) = Some (Primitive (JInherited p.(AlertProps.variant))).
Proof.
  destruct p as [body v t]. cbn [AlertProps.variant]. intros Hv.
  pose proof (colorByVariant_inherited v Hv) as Hcolor.
  pose proof (Get_inherited _ v
                (iconMap_own_None (useFigures u) v (inherited_not_variant v Hv)) Hv)
    as Hglyph.
  split; [|split].
  - rewrite <- Hcolor. reflexivity.
  - rewrite <- Hcolor. reflexivity.
  - rewrite <- Hglyph. reflexivity.
Qed.

(** X8.  The two slots do not mix their inputs.  The container's
    attributes and the whole icon slot are the same whatever the title and
    the children; the whole content slot is the same whatever the variant
    and the capability flag. *)
Theorem slots_are_independent :
  ∀ (u u' : bool) (v v' : string) (body body' : ReactNode) (t t' : option string),
    props_of <$> layout (render u
      {| AlertProps.children := body; AlertProps.variant := v; AlertProps.title := t |})
    = props_of <$> layout (render u
      {| AlertProps.children := body'; AlertProps.variant := v; AlertProps.title := t' |})
    ∧ iconSlot (render u
        {| AlertProps.children := body; AlertProps.variant := v; AlertProps.title := t |})
      = iconSlot (render u
        {| AlertProps.children := body'; AlertProps.variant := v; AlertProps.title := t' |})
    ∧ contentSlot (render u
        {| AlertProps.children := body; AlertProps.variant := v; AlertProps.title := t |})
      = contentSlot (render u'
        {| AlertProps.children := body; AlertProps.variant := v'; AlertProps.title := t |}).
Proof. intros. repeat split. Qed.

End MoreAlertProperties.

(** X9.  What the theming hook returns never reaches the layout: two
    renders of the same props under any two hooks return the same tree, so
    the styles are always those of [alertTheme]. *)
Theorem Alert_ignores_theme_hook :
  ∀ (T1 T2 : Type)
    (hook1 : string → AlertTheme → AlertThemeProps → T1)
    (hook2 : string → AlertTheme → AlertThemeProps → T2)
    (u : bool) (p : AlertProps.t),
    Alert hook1 u p = Alert hook2 u p.
Proof. reflexivity. Qed.

Lemma Alert_inherited_variant_witness :
  ("toString" ∈ ObjectPrototype)
  ∧ borderColor (Alert no_theme true
      {| AlertProps.children := Primitive (JString "Message");
         AlertProps.variant := "toString";
         AlertProps.title := None |})
    = Some (JInherited "toString").
Proof.
  assert (Hv : "toString" ∈ ObjectPrototype) by (apply (bool_decide_unpack _); exact I).
  split; [exact Hv|].
  exact (proj1 (Alert_inherited_variant no_theme true
                  {| AlertProps.children := Primitive (JString "Message");
                     AlertProps.variant := "toString";
                     AlertProps.title := None |} Hv)).
Defined.
